(** * posthog/api/property_definition.py

    The listing endpoint over property definitions: the hidden-property
    set, the request-driven composition of the raw SQL query
    ([get_queryset] and its helpers), retrieval by id ([get_object]) and the
    serializer's blocked [update].

    Python values are embedded as the inductive [pyval]; functions that can
    raise return a [result]; the request's query string is a finite map;
    the raw query keeps the strings the f-string splices together, and a
    small three-valued semantics gives the composed statement its meaning
    over a database of property-definition and event-property rows. *)

From Stdlib Require Import Ascii.
From stdpp Require Import gmap strings list sorting pretty.

#[local] Set Warnings "-clear-no-such-hyp".

(** ** Exceptions and results *)

(** The exceptions that can leave the functions of this module. *)
Inductive exn :=
| JSONDecodeError            (* json.loads on text that is not JSON *)
| TypeError                  (* tuple(), set() or len() on a value without it *)
| DatabaseError              (* the database driver or server rejects the statement *)
| DoesNotExist               (* Model.objects.get found no row *)
| MultipleObjectsReturned    (* Model.objects.get found several rows *)
| EnterpriseFeatureException.

Inductive result (A : Type) :=
| Ok (a : A)
| Raise (e : exn).
Arguments Ok {A} a.
Arguments Raise {A} e.

#[global] Instance result_ret : MRet result := λ A, @Ok A.
#[global] Instance result_bind : MBind result := λ A B f m,
  match m with
  | Ok a => f a
  | Raise e => Raise e
  end.

(** ** Python values *)

(** The values [json.loads] produces (numbers restricted to integers) and
    the values bound to the statement's placeholders. A dictionary is the
    list of its items in iteration order. *)
#[warnings="-register-all"]
Inductive pyval :=
| PyNone
| PyBool (b : bool)
| PyInt (n : Z)
| PyStr (s : string)
| PyList (xs : list pyval)
| PyDict (items : list (string * pyval)).

Fixpoint chars (s : string) : list string :=
  match s with
  | EmptyString => []
  | String c s' => String c EmptyString :: chars s'
  end.

(** Truth value of an object, as [if x:], [x or y] and [x and y] test it. *)
Definition truthy (v : pyval) : bool :=
  match v with
  | PyNone => false
  | PyBool b => b
  | PyInt n => bool_decide (n ≠ 0%Z)
  | PyStr s => bool_decide (s ≠ "")
  | PyList xs => bool_decide (xs ≠ [])
  | PyDict items => bool_decide (items ≠ [])
  end.

(** [x or []]. *)
Definition or_empty_list (v : pyval) : pyval :=
  if truthy v then v else PyList [].

(** Iteration, as [tuple(x)] and [set(x)] perform it: a list yields its
    elements, a string its characters, a dictionary its keys. *)
Definition py_iter (v : pyval) : result (list pyval) :=
  match v with
  | PyList xs => Ok xs
  | PyStr s => Ok (PyStr <$> chars s)
  | PyDict items => Ok ((λ kv, PyStr kv.1) <$> items)
  | PyNone | PyBool _ | PyInt _ => Raise TypeError
  end.

(** [len(x)]. *)
Definition py_len (v : pyval) : result nat :=
  match v with
  | PyList xs => Ok (length xs)
  | PyStr s => Ok (String.length s)
  | PyDict items => Ok (length items)
  | PyNone | PyBool _ | PyInt _ => Raise TypeError
  end.

(** Set elements, up to Python's equality: [True == 1] and [False == 0]
    fall together, lists and dictionaries are unhashable. *)
Inductive hashable :=
| HNone
| HNum (n : Z)
| HStr (s : string).

#[global] Instance hashable_eq_dec : EqDecision hashable.
Proof. solve_decision. Defined.

#[global] Instance hashable_countable : Countable hashable :=
  inj_countable'
    (λ h, match h with
          | HNone => inl ()
          | HNum n => inr (inl n)
          | HStr s => inr (inr s)
          end)
    (λ x, match x with
          | inl _ => HNone
          | inr (inl n) => HNum n
          | inr (inr s) => HStr s
          end)
    (λ h, match h with HNone | HNum _ | HStr _ => eq_refl end).

Definition py_hash (v : pyval) : result hashable :=
  match v with
  | PyNone => Ok HNone
  | PyBool b => Ok (HNum (if b then 1 else 0))
  | PyInt n => Ok (HNum n)
  | PyStr s => Ok (HStr s)
  | PyList _ | PyDict _ => Raise TypeError
  end.

Definition of_hashable (h : hashable) : pyval :=
  match h with
  | HNone => PyNone
  | HNum n => PyInt n
  | HStr s => PyStr s
  end.

Fixpoint hash_all (xs : list pyval) : result (list hashable) :=
  match xs with
  | [] => Ok []
  | x :: xs' => h ← py_hash x; hs ← hash_all xs'; Ok (h :: hs)
  end.

(** [set(x)]. *)
Definition py_set (v : pyval) : result (gset hashable) :=
  xs ← py_iter v; hs ← hash_all xs; Ok (list_to_set hs).

Definition is_digit (c : ascii) : bool :=
  (48 <=? nat_of_ascii c) && (nat_of_ascii c <=? 57).

(** [s.split(sep)] for a one-character separator: never empty, and empty
    pieces are kept. *)
Fixpoint split_go (sep : Ascii.ascii) (cur : string) (s : string) : list string :=
  match s with
  | EmptyString => [String.rev cur]
  | String c s' =>
      if decide (c = sep) then String.rev cur :: split_go sep EmptyString s'
      else split_go sep (String c cur) s'
  end.

Definition split (sep : Ascii.ascii) (s : string) : list string :=
  split_go sep EmptyString s.

(** [", ".join(xs)]. *)
Fixpoint join (sep : string) (xs : list string) : string :=
  match xs with
  | [] => ""
  | [x] => x
  | x :: xs' => x +:+ sep +:+ join sep xs'
  end.

(** ** Data model *)

(** Modelled from the spec: the models [PropertyDefinition] and
    [EventProperty] (posthog.models) are not among the sources; the spec's
    data model gives their attributes. Identifiers and team ids are
    integers; only [query_usage_30_day] is nullable. *)
Record PropertyDefinition := {
  pd_id : Z;
  pd_team_id : Z;
  pd_name : string;
  pd_is_numerical : bool;
  pd_query_usage_30_day : option Z;
  pd_property_type : option string;
}.

Record EventProperty := {
  ep_team_id : Z;
  ep_event : string;
  ep_property : string;
}.

Record database := {
  posthog_propertydefinition : list PropertyDefinition;
  posthog_eventproperty : list EventProperty;
}.

(** A row of the listing: the definition's columns and the computed
    [is_event_property], [None] standing for SQL's NULL. *)
Record row := {
  definition : PropertyDefinition;
  is_event_property : option bool;
}.

(** A value of the parameter dictionary handed to the database driver: a
    tuple, a plain value, or a dictionary of such. *)
#[warnings="-register-all"]
Inductive sqlparam :=
| ParamTuple (xs : list pyval)
| ParamValue (v : pyval)
| ParamDict (items : list (string * sqlparam)).

(** The view handling one request: the team resolved by the routing
    mixin, the [id] captured from the URL, and the query string
    ([request.GET], key to value). *)
Record ViewSet := {
  team_id : Z;
  kwargs_id : Z;
  GET : gmap string string;
}.


(** The names of the statement's own placeholders. *)
Definition reserved_params : list string :=
  ["event_names"; "names"; "team_id"; "excluded_properties"].

(** ** What the module imports *)

(** The parts this module takes from elsewhere. [GROUP_TYPES_LIMIT]
    (posthog.constants), the model's columns and [json.loads] are
    parameters. Modelled from the spec: [term_search_filter_sql]
    (posthog.filters) is not among the sources; it produces its own query
    fragment and bound parameters, and the fragment is AND-combined with
    the other conditions, so it denotes one more condition on the row
    ([search_denote]) and binds none of the statement's own placeholders.
    [name_le] is the database's collation of [name]. *)
Class Externals := {
  GROUP_TYPES_LIMIT : nat;
  json_loads : string → option pyval;
  property_definition_columns : list string;
  term_search_filter_sql :
    list string → option string → string * gmap string sqlparam;
  search_denote :
    string → gmap string sqlparam → PropertyDefinition → option bool;
  term_search_own_params : ∀ fields search k,
    k ∈ reserved_params → (term_search_filter_sql fields search).2 !! k = None;
  name_le : relation string;
  name_le_dec :: RelDecision name_le;
  name_le_trans :: Transitive name_le;
  name_le_total :: Total name_le;
}.

(** ** The hidden-property set *)

Section hidden.
Context `{Externals}.

Definition hidden_base : list string :=
  ["distinct_id"; "$set"; "$set_once";
   "$groups"; "$group_type"; "$group_key"; "$group_set"].

Definition hidden_groups : list string :=
  (λ i : nat, "$group_" +:+ pretty i) <$> seq 0 GROUP_TYPES_LIMIT.

(** Properties generated by ingestion we don't want to show to users. *)
Definition HIDDEN_PROPERTY_DEFINITIONS : gset string :=
  list_to_set (hidden_base ++ hidden_groups).

End hidden.

(** ** The query composer *)

Definition dquote : string := String (Ascii.ascii_of_nat 34) EmptyString.
Definition newline : string := String (Ascii.ascii_of_nat 10) EmptyString.

(** The raw query handed to [PropertyDefinition.objects.raw]: the strings
    spliced into the f-string's holes, and the parameter dictionary. *)
Record RawQuerySet := {
  property_definition_fields : string;
  event_property_field : string;
  name_filter : string;
  numerical_filter : string;
  search_query : string;
  event_property_filter : string;
  params : gmap string sqlparam;
}.

(** The statement's text, as the f-string builds it. *)
Definition raw_query (q : RawQuerySet) : string :=
  newline
  +:+ "                SELECT " +:+ property_definition_fields q +:+ "," +:+ newline
  +:+ "                       " +:+ event_property_field q +:+ " AS is_event_property" +:+ newline
  +:+ "                FROM posthog_propertydefinition" +:+ newline
  +:+ "                WHERE team_id = %(team_id)s AND name NOT IN %(excluded_properties)s "
  +:+ name_filter q +:+ " " +:+ numerical_filter q +:+ " " +:+ search_query q
  +:+ " " +:+ event_property_filter q +:+ newline
  +:+ "                ORDER BY is_event_property DESC, query_usage_30_day DESC NULLS LAST, name ASC" +:+ newline
  +:+ "            ".

Definition event_property_subquery : string :=
  "(SELECT count(1) > 0 FROM posthog_eventproperty WHERE posthog_eventproperty.team_id=posthog_propertydefinition.team_id AND posthog_eventproperty.event IN %(event_names)s AND posthog_eventproperty.property = posthog_propertydefinition.name)".

Definition numerical_clause : string :=
  "AND is_numerical = true AND name NOT IN ('distinct_id', 'timestamp')".

Section composer.
Context `{Externals}.

(** [self.request.GET.get(key, None)]. *)
Definition request_GET_get (self : ViewSet) (key : string) : pyval :=
  from_option PyStr PyNone (GET self !! key).

(** [json.loads(s)]. *)
Definition loads (v : pyval) : result pyval :=
  match v with
  | PyStr s =>
      match json_loads s with
      | Some x => Ok x
      | None => Raise JSONDecodeError
      end
  | _ => Raise TypeError
  end.

Definition search_fields : list string := ["name"].

(** Returns the fragment and the dictionary [{"names": names}]. *)
Definition _get_name_filter (self : ViewSet) : string * sqlparam :=
  let properties_to_filter := request_GET_get self "properties" in
  match properties_to_filter with
  | PyStr s =>
      if truthy properties_to_filter
      then ("AND name IN %(names)s",
            ParamDict [("names", ParamTuple (PyStr <$> split ","%char s))])
      else ("", ParamDict [("names", ParamTuple [])])
  | _ => ("", ParamDict [("names", ParamTuple [])])
  end.

Definition _get_numerical_filter (self : ViewSet) : string :=
  if bool_decide (GET self !! "is_numerical" = Some "true")
  then numerical_clause
  else "".

Definition _get_event_names (self : ViewSet) : result pyval :=
  let event_names := request_GET_get self "event_names" in
  if truthy event_names then loads event_names else Ok event_names.

Definition _get_event_property_field (self : ViewSet) : result (string * string) :=
  event_names ← _get_event_names self;
  nonempty ← (if truthy event_names
              then n ← py_len event_names; Ok (bool_decide (0 < n))
              else Ok false);
  if nonempty : bool then
    let event_property_field := event_property_subquery in
    if bool_decide (GET self !! "is_event_property" = Some "true")
    then Ok (event_property_field, "AND " +:+ event_property_field +:+ " = true")
    else if bool_decide (GET self !! "is_event_property" = Some "false")
    then Ok (event_property_field, "AND " +:+ event_property_field +:+ " = false")
    else Ok (event_property_field, "")
  else Ok ("NULL", "").

Definition _get_excluded_properties (self : ViewSet) : result pyval :=
  let excluded_properties := request_GET_get self "excluded_properties" in
  if truthy excluded_properties then loads excluded_properties
  else Ok excluded_properties.

Definition _get_search_fields (self : ViewSet) : string * gmap string sqlparam :=
  let search := GET self !! "search" in
  term_search_filter_sql search_fields search.

(** [tuple(set.union(set(excluded_properties or []), HIDDEN_PROPERTY_DEFINITIONS))]. *)
Definition excluded_union (excluded_properties : pyval) : result (gset hashable) :=
  s ← py_set (or_empty_list excluded_properties);
  Ok (s ∪ set_map HStr HIDDEN_PROPERTY_DEFINITIONS).

Definition get_queryset (self : ViewSet) : result RawQuerySet :=
  let '(name_filter, name_params) := _get_name_filter self in
  let numerical_filter := _get_numerical_filter self in
  event_names ← _get_event_names self;
  excluded_properties ← _get_excluded_properties self;
  '(event_property_field, event_property_filter) ← _get_event_property_field self;
  let '(search_query, search_params) := _get_search_fields self in
  event_names_tuple ← py_iter (or_empty_list event_names);
  excluded ← excluded_union excluded_properties;
  let params : gmap string sqlparam :=
    search_params ∪
    <["event_names" := ParamTuple event_names_tuple]>
    (<["names" := name_params]>
    (<["team_id" := ParamValue (PyInt (team_id self))]>
    (<["excluded_properties" := ParamTuple (of_hashable <$> elements excluded)]> ∅))) in
  let property_definition_fields :=
    join ", " ((λ column, dquote +:+ column +:+ dquote) <$> property_definition_columns) in
  Ok {| property_definition_fields := property_definition_fields;
        event_property_field := event_property_field;
        name_filter := name_filter;
        numerical_filter := numerical_filter;
        search_query := search_query;
        event_property_filter := event_property_filter;
        params := params |}.

(** The text of the statement a request leads to. *)
Definition query_text (self : ViewSet) : result string :=
  q ← get_queryset self; Ok (raw_query q).

(** The agreement between two requests that C3 asks for. *)
Definition same_shape (self1 self2 : ViewSet) : Prop :=
  dom (GET self1) = dom (GET self2)
  ∧ (GET self1 !! "is_numerical" = Some "true"
     ↔ GET self2 !! "is_numerical" = Some "true")
  ∧ (GET self1 !! "is_event_property" = Some "true"
     ↔ GET self2 !! "is_event_property" = Some "true")
  ∧ (GET self1 !! "is_event_property" = Some "false"
     ↔ GET self2 !! "is_event_property" = Some "false")
  ∧ (∀ v1 v2, _get_event_names self1 = Ok v1 → _get_event_names self2 = Ok v2 →
              truthy v1 = truthy v2).

End composer.

(** ** Meaning of the composed statement *)

(** SQL's three-valued logic: [None] is NULL (unknown). *)
Definition sql_and (a b : option bool) : option bool :=
  match a, b with
  | Some false, _ | _, Some false => Some false
  | Some true, Some true => Some true
  | _, _ => None
  end.

Definition sql_or (a b : option bool) : option bool :=
  match a, b with
  | Some true, _ | _, Some true => Some true
  | Some false, Some false => Some false
  | _, _ => None
  end.

Definition sql_not (a : option bool) : option bool := negb <$> a.

Definition sql_eq `{EqDecision A} (x y : option A) : option bool :=
  match x, y with
  | Some a, Some b => Some (bool_decide (a = b))
  | _, _ => None
  end.

(** [x IN (y1, ..., yn)] is [x = y1 OR ... OR x = yn]. *)
Definition sql_in `{EqDecision A} (x : option A) (ys : list (option A)) : option bool :=
  foldr (λ y acc, sql_or (sql_eq x y) acc) (Some false) ys.

(** A WHERE clause keeps the rows on which it is true. *)
Definition holds (a : option bool) : bool :=
  match a with
  | Some true => true
  | _ => false
  end.

(** The conditions and select expressions the composer's fragments stand
    for, over placeholders of type [P]: a placeholder's name in the
    statement's text, the literals bound to it once the driver has merged
    the parameters in. *)
Inductive condition (P : Type) :=
| CTrue
| CAnd (c1 c2 : condition P)
| CIsNumerical
| CNameIn (p : P)
| CNameNotInLiterals (names : list string)
| CEventPropertyIs (p : P) (b : bool).
Arguments CTrue {P}.
Arguments CAnd {P} c1 c2.
Arguments CIsNumerical {P}.
Arguments CNameIn {P} p.
Arguments CNameNotInLiterals {P} names.
Arguments CEventPropertyIs {P} p b.

Inductive select_expr (P : Type) :=
| ENull
| EEventProperty (p : P).
Arguments ENull {P}.
Arguments EEventProperty {P} p.

(** What each fragment the composer can splice into the WHERE clause
    means. *)
Definition where_fragments : list (string * condition string) :=
  [ ("", CTrue);
    ("AND name IN %(names)s", CNameIn "names");
    (numerical_clause, CAnd CIsNumerical (CNameNotInLiterals ["distinct_id"; "timestamp"]));
    ("AND " +:+ event_property_subquery +:+ " = true", CEventPropertyIs "event_names" true);
    ("AND " +:+ event_property_subquery +:+ " = false", CEventPropertyIs "event_names" false) ].

(** What each expression spliced in as the [is_event_property] column
    means. *)
Definition select_fragments : list (string * select_expr string) :=
  [ ("NULL", ENull);
    (event_property_subquery, EEventProperty "event_names") ].

Fixpoint assoc {A} (table : list (string * A)) (key : string) : option A :=
  match table with
  | [] => None
  | (k, a) :: table' => if decide (k = key) then Some a else assoc table' key
  end.

(** The literal the driver writes for a Python value compared with a text
    column: [None] becomes NULL, a string a text literal, the empty list
    the literal ['{}']; a number, a boolean or an array is no text, and a
    dictionary cannot be written at all: the statement is rejected. *)
Definition adapt (v : pyval) : result (option string) :=
  match v with
  | PyNone => Ok None
  | PyStr s => Ok (Some s)
  | PyList [] => Ok (Some "{}")
  | _ => Raise DatabaseError
  end.

Fixpoint adapt_all (xs : list pyval) : result (list (option string)) :=
  match xs with
  | [] => Ok []
  | x :: xs' => l ← adapt x; ls ← adapt_all xs'; Ok (l :: ls)
  end.

(** The literals for a placeholder that stands after IN: the parameter has
    to be a tuple, and [IN ()] is no SQL. *)
Definition bind_tuple (ps : gmap string sqlparam) (key : string)
    : result (list (option string)) :=
  match ps !! key with
  | Some (ParamTuple (x :: xs)) => adapt_all (x :: xs)
  | _ => Raise DatabaseError
  end.

(** The integer for a placeholder compared with [team_id]. *)
Definition bind_int (ps : gmap string sqlparam) (key : string) : result Z :=
  match ps !! key with
  | Some (ParamValue (PyInt n)) => Ok n
  | _ => Raise DatabaseError
  end.

Fixpoint bind_condition (ps : gmap string sqlparam) (c : condition string)
    : result (condition (list (option string))) :=
  match c with
  | CTrue => Ok CTrue
  | CAnd c1 c2 =>
      b1 ← bind_condition ps c1; b2 ← bind_condition ps c2; Ok (CAnd b1 b2)
  | CIsNumerical => Ok CIsNumerical
  | CNameIn p => ls ← bind_tuple ps p; Ok (CNameIn ls)
  | CNameNotInLiterals names => Ok (CNameNotInLiterals names)
  | CEventPropertyIs p b => ls ← bind_tuple ps p; Ok (CEventPropertyIs ls b)
  end.

Definition bind_fragment (ps : gmap string sqlparam) (fragment : string)
    : result (condition (list (option string))) :=
  match assoc where_fragments fragment with
  | Some c => bind_condition ps c
  | None => Raise DatabaseError
  end.

Definition bind_select (ps : gmap string sqlparam) (fragment : string)
    : result (select_expr (list (option string))) :=
  match assoc select_fragments fragment with
  | Some ENull => Ok ENull
  | Some (EEventProperty p) => ls ← bind_tuple ps p; Ok (EEventProperty ls)
  | None => Raise DatabaseError
  end.

(** The statement with its parameters merged in. *)
Record bound_statement := {
  b_derived : select_expr (list (option string));
  b_team_id : Z;
  b_excluded : list (option string);
  b_name : condition (list (option string));
  b_numerical : condition (list (option string));
  b_search : PropertyDefinition → option bool;
  b_event_property : condition (list (option string));
}.

(** [SELECT count(1) > 0 FROM posthog_eventproperty WHERE team_id = the
    row's team AND event IN events AND property = the row's name]. *)
Definition event_property_exists (db : database) (events : list (option string))
    (pd : PropertyDefinition) : bool :=
  bool_decide (0 < length (filter
    (λ e, holds (sql_and (sql_and
             (sql_eq (Some (ep_team_id e)) (Some (pd_team_id pd)))
             (sql_in (Some (ep_event e)) events))
             (sql_eq (Some (ep_property e)) (Some (pd_name pd)))) = true)
    (posthog_eventproperty db))).


Fixpoint eval_condition (db : database) (pd : PropertyDefinition)
    (c : condition (list (option string))) : option bool :=
  match c with
  | CTrue => Some true
  | CAnd c1 c2 => sql_and (eval_condition db pd c1) (eval_condition db pd c2)
  | CIsNumerical => sql_eq (Some (pd_is_numerical pd)) (Some true)
  | CNameIn names => sql_in (Some (pd_name pd)) names
  | CNameNotInLiterals names => sql_not (sql_in (Some (pd_name pd)) (Some <$> names))
  | CEventPropertyIs events b => sql_eq (Some (event_property_exists db events pd)) (Some b)
  end.

Definition eval_select (db : database) (pd : PropertyDefinition)
    (e : select_expr (list (option string))) : option bool :=
  match e with
  | ENull => None
  | EEventProperty events => Some (event_property_exists db events pd)
  end.

(** The WHERE clause: the two fixed conditions and the four holes, joined
    by AND in the order of the text. *)
Definition eval_where (db : database) (b : bound_statement) (pd : PropertyDefinition)
    : option bool :=
  sql_and (sql_eq (Some (pd_team_id pd)) (Some (b_team_id b)))
  (sql_and (sql_not (sql_in (Some (pd_name pd)) (b_excluded b)))
  (sql_and (eval_condition db pd (b_name b))
  (sql_and (eval_condition db pd (b_numerical b))
  (sql_and (b_search b pd)
           (eval_condition db pd (b_event_property b)))))).

(** *** ORDER BY *)

Inductive direction := ASC | DESC.
Inductive nulls_order := NULLS_FIRST | NULLS_LAST.

(** Without NULLS FIRST or NULLS LAST, nulls sort as larger than any
    value: last when ascending, first when descending. *)
Definition default_nulls (d : direction) : nulls_order :=
  match d with
  | ASC => NULLS_LAST
  | DESC => NULLS_FIRST
  end.

(** [x] may stand before [y] under one sort key. *)
Definition key_le {A} (le : relation A) (d : direction) (n : nulls_order)
    (x y : option A) : Prop :=
  match x, y with
  | None, None => True
  | None, Some _ => n = NULLS_FIRST
  | Some _, None => n = NULLS_LAST
  | Some a, Some b =>
      match d with
      | ASC => le a b
      | DESC => le b a
      end
  end.

(** One sort key of ORDER BY: the rows compared by a column. *)
Definition by_key {A K} (key : A → option K) (le : relation K)
    (d : direction) (n : nulls_order) : relation A :=
  λ x y, key_le le d n (key x) (key y).

(** Sort by [R1], ties broken by [R2]. *)
Definition lex {A} (R1 R2 : relation A) : relation A :=
  λ x y, R1 x y ∧ (R1 y x → R2 x y).

Definition bool_le (a b : bool) : Prop := a = true → b = true.

#[global] Instance direction_eq_dec : EqDecision direction.
Proof. solve_decision. Defined.
#[global] Instance nulls_order_eq_dec : EqDecision nulls_order.
Proof. solve_decision. Defined.

#[global] Instance key_le_dec {A} (le : relation A) `{!RelDecision le} d n :
  RelDecision (key_le le d n).
Proof. intros [a|] [b|]; destruct d; simpl; apply _. Defined.

#[global] Instance by_key_dec {A K} (key : A → option K) (le : relation K)
  `{!RelDecision le} d n : RelDecision (by_key key le d n).
Proof. intros x y. unfold by_key. apply _. Defined.

#[global] Instance lex_dec {A} (R1 R2 : relation A)
  `{!RelDecision R1, !RelDecision R2} : RelDecision (lex R1 R2).
Proof. intros x y. unfold lex. apply _. Defined.

#[global] Instance bool_le_dec : RelDecision bool_le.
Proof. intros a b. unfold bool_le. apply _. Defined.

(** ** Running the query, retrieving and updating *)

Section execution.
Context `{Externals}.

(** The driver merges the parameters into the statement: every fragment
    has to be one the statement's grammar knows, and every placeholder it
    mentions has to have a usable value. *)
Definition bind (q : RawQuerySet) : result bound_statement :=
  derived ← bind_select (params q) (event_property_field q);
  team ← bind_int (params q) "team_id";
  excluded ← bind_tuple (params q) "excluded_properties";
  by_name ← bind_fragment (params q) (name_filter q);
  numerical ← bind_fragment (params q) (numerical_filter q);
  event_property ← bind_fragment (params q) (event_property_filter q);
  Ok {| b_derived := derived;
        b_team_id := team;
        b_excluded := excluded;
        b_name := by_name;
        b_numerical := numerical;
        b_search := search_denote (search_query q) (params q);
        b_event_property := event_property |}.

Definition select_row (db : database) (b : bound_statement) (pd : PropertyDefinition)
    : row :=
  {| definition := pd; is_event_property := eval_select db pd (b_derived b) |}.

(** [ORDER BY is_event_property DESC, query_usage_30_day DESC NULLS LAST,
    name ASC]. *)
Definition order_by : relation row :=
  lex (by_key is_event_property bool_le DESC (default_nulls DESC))
 (lex (by_key (λ r, pd_query_usage_30_day (definition r)) Z.le DESC NULLS_LAST)
      (by_key (λ r, Some (pd_name (definition r))) name_le ASC (default_nulls ASC))).

#[global] Instance order_by_dec : RelDecision order_by.
Proof. unfold order_by. apply _. Defined.



Definition run (db : database) (b : bound_statement) : list row :=
  merge_sort order_by
    (select_row db b <$>
       filter (λ pd, holds (eval_where db b pd) = true) (posthog_propertydefinition db)).

(** Iterating the raw query set. *)
Definition execute (db : database) (q : RawQuerySet) : result (list row) :=
  b ← bind q; Ok (run db b).

(** The list operation: the rows of the composed query. *)
Definition list_rows (db : database) (self : ViewSet) : result (list row) :=
  q ← get_queryset self; execute db q.

(** The caller's [excluded_properties], empty when absent. *)
Definition caller_excluded (self : ViewSet) : result (list pyval) :=
  excluded_properties ← _get_excluded_properties self;
  py_iter (or_empty_list excluded_properties).

(** [PropertyDefinition.objects.get(id=id)]. *)
Definition objects_get (db : database) (id : Z) : result PropertyDefinition :=
  match filter (λ pd, pd_id pd = id) (posthog_propertydefinition db) with
  | [] => Raise DoesNotExist
  | [pd] => Ok pd
  | _ :: _ :: _ => Raise MultipleObjectsReturned
  end.

Definition get_object (db : database) (self : ViewSet) : result PropertyDefinition :=
  let id := kwargs_id self in
  objects_get db id.


End execution.

(** ** A concrete environment *)

(** A reader for JSON arrays of strings without escapes, enough to run the
    model on concrete requests: on such an array, and on text that is no
    JSON at all, it answers as [json.loads] does. *)
Inductive json_state :=
| JStart
| JOpen
| JString (acc : string)
| JItem
| JComma
| JEnd.

Definition is_space (c : ascii) : bool :=
  bool_decide (c ∈ [ascii_of_nat 32; ascii_of_nat 9; ascii_of_nat 10; ascii_of_nat 13]).

Fixpoint json_array_go (st : json_state) (items : list string) (s : string)
    : option (list string) :=
  match s with
  | EmptyString =>
      match st with
      | JEnd => Some (reverse items)
      | _ => None
      end
  | String c s' =>
      match st with
      | JStart =>
          if is_space c then json_array_go JStart items s'
          else if decide (c = "["%char) then json_array_go JOpen items s'
          else None
      | JOpen =>
          if is_space c then json_array_go JOpen items s'
          else if decide (c = ascii_of_nat 34) then json_array_go (JString "") items s'
          else if decide (c = "]"%char) then json_array_go JEnd items s'
          else None
      | JString acc =>
          if decide (c = ascii_of_nat 34) then json_array_go JItem (String.rev acc :: items) s'
          else if decide (c = ascii_of_nat 92) then None
          else if decide (nat_of_ascii c < 32) then None
          else json_array_go (JString (String c acc)) items s'
      | JItem =>
          if is_space c then json_array_go JItem items s'
          else if decide (c = ","%char) then json_array_go JComma items s'
          else if decide (c = "]"%char) then json_array_go JEnd items s'
          else None
      | JComma =>
          if is_space c then json_array_go JComma items s'
          else if decide (c = ascii_of_nat 34) then json_array_go (JString "") items s'
          else None
      | JEnd =>
          if is_space c then json_array_go JEnd items s' else None
      end
  end.

Definition json_string_array (s : string) : option pyval :=
  (λ items, PyList (PyStr <$> items)) <$> json_array_go JStart [] s.

(** Five group types, the model's columns, the reader above, a term
    search that adds no condition, and the byte-wise order of names. *)
#[local] Program Instance sample : Externals := {|
  GROUP_TYPES_LIMIT := 5;
  json_loads := json_string_array;
  property_definition_columns :=
    ["id"; "name"; "is_numerical"; "query_usage_30_day"; "property_type"; "team_id"];
  term_search_filter_sql := λ _ _, ("", ∅);
  search_denote := λ _ _ _, Some true;
  name_le := String.le;
|}.
Next Obligation. intros. apply lookup_empty. Qed.

Definition quoted (s : string) : string := dquote +:+ s +:+ dquote.

Definition request (team : Z) (query : list (string * string)) : ViewSet :=
  {| team_id := team; kwargs_id := 0; GET := list_to_map query |}.

(** Property definitions of two teams and the event properties seen for
    them. *)
Definition property (id team : Z) (name : string) (numerical : bool)
    (usage : option Z) : PropertyDefinition :=
  {| pd_id := id; pd_team_id := team; pd_name := name;
     pd_is_numerical := numerical; pd_query_usage_30_day := usage;
     pd_property_type := None |}.

Definition p_browser : PropertyDefinition := property 1 1 "$browser" false (Some 5%Z).
Definition p_set : PropertyDefinition := property 2 1 "$set" false (Some 50%Z).
Definition p_amount : PropertyDefinition := property 3 1 "amount" true None.
Definition p_other_team : PropertyDefinition := property 4 2 "revenue" true (Some 9%Z).
Definition p_plan : PropertyDefinition := property 5 1 "plan" false (Some 7%Z).
Definition p_group : PropertyDefinition := property 6 1 "$group_3" false (Some 7%Z).
Definition p_timestamp : PropertyDefinition := property 7 1 "timestamp" true (Some 7%Z).

Definition sample_db : database :=
  {| posthog_propertydefinition :=
       [p_browser; p_set; p_amount; p_other_team; p_plan; p_group; p_timestamp];
     posthog_eventproperty :=
       [ {| ep_team_id := 1; ep_event := "login"; ep_property := "plan" |};
         {| ep_team_id := 2; ep_event := "login"; ep_property := "amount" |};
         {| ep_team_id := 1; ep_event := "purchase"; ep_property := "amount" |} ] |}.

Definition listed (pd : PropertyDefinition) (derived : option bool) : row :=
  {| definition := pd; is_event_property := derived |}.

(** The query a request composes, when it composes one. *)
Definition composed `{Externals} (self : ViewSet) : RawQuerySet :=
  match get_queryset self with
  | Ok q => q
  | Raise _ =>
      {| property_definition_fields := ""; event_property_field := "";
         name_filter := ""; numerical_filter := ""; search_query := "";
         event_property_filter := ""; params := ∅ |}
  end.

(** Requests of team 1 and the listings they get over [sample_db]. *)
Definition request_all : ViewSet := request 1 [].

Definition listing_all : list row :=
  [listed p_plan None; listed p_timestamp None; listed p_browser None;
   listed p_amount None].





Definition request_login : ViewSet :=
  request 1 [("event_names", "[" +:+ quoted "login" +:+ "]")].


Definition request_purchase : ViewSet :=
  request 1 [("event_names", "[" +:+ quoted "purchase" +:+ ", " +:+ quoted "signup" +:+ "]");
             ("excluded_properties", "[" +:+ quoted "plan" +:+ "]")].



Definition request_empty_properties : ViewSet := request 1 [("properties", "")].

Definition request_one_property : ViewSet := request 1 [("properties", "a")].

(** A caller of team 1 retrieving the id of team 2's definition. *)
Definition request_foreign_id : ViewSet :=
  {| team_id := 1; kwargs_id := 4; GET := ∅ |}.

(** The reader extended by three more JSON texts: an array holding null,
    a number, and an array holding an array. *)
Definition json_sample_values (s : string) : option pyval :=
  if decide (s = "[null]") then Some (PyList [PyNone])
  else if decide (s = "5") then Some (PyInt 5)
  else if decide (s = "[[]]") then Some (PyList [PyList []])
  else json_string_array s.

#[local] Program Definition sample_values : Externals := {|
  GROUP_TYPES_LIMIT := 5;
  json_loads := json_sample_values;
  property_definition_columns :=
    ["id"; "name"; "is_numerical"; "query_usage_30_day"; "property_type"; "team_id"];
  term_search_filter_sql := λ _ _, ("", ∅);
  search_denote := λ _ _ _, Some true;
  name_le := String.le;
|}.
Next Obligation. intros. apply lookup_empty. Qed.


Definition request_excluding_null : ViewSet :=
  request 1 [("excluded_properties", "[null]")].

Definition request_number : ViewSet := request 1 [("event_names", "5")].

Definition request_three_properties : ViewSet :=
  request 1 [("properties", "plan,,amount")].

Definition request_id (team id : Z) : ViewSet :=
  {| team_id := team; kwargs_id := id; GET := ∅ |}.


Definition request_excluding_array : ViewSet :=
  request 1 [("excluded_properties", "[[]]")].


Definition request_excluding_two : ViewSet :=
  request 1 [("excluded_properties",
              "[" +:+ quoted "plan" +:+ "," +:+ quoted "amount" +:+ "]")].

Definition request_excluding_repeated : ViewSet :=
  request 1 [("excluded_properties",
              "[" +:+ quoted "amount" +:+ "," +:+ quoted "plan" +:+ ","
                  +:+ quoted "plan" +:+ "]")].

(** * Properties *)

(** ** The hidden-property set *)

Section hidden_facts.
Context `{Externals}.

Lemma pretty_N_char_digit (k : N) : is_digit (pretty_N_char k).
Proof.
  unfold pretty_N_char. by repeat case_match.
Qed.

Lemma pretty_N_go_head (x : N) (s : string) :
  (0 < x)%N → ∃ c s', pretty_N_go x s = String c s' ∧ is_digit c.
Proof.
  revert s. induction (N.lt_wf_0 x) as [x _ IH]; intros s Hx.
  rewrite pretty_N_go_step by done.
  destruct (decide (x `div` 10 = 0)%N) as [Hz|Hnz].
  - rewrite Hz, pretty_N_go_0. eauto using pretty_N_char_digit.
  - apply IH; [by apply N.div_lt | ].
    apply N.neq_0_lt_0. done.
Qed.

Lemma pretty_nat_head (n : nat) :
  ∃ c s, pretty n = String c s ∧ is_digit c.
Proof.
  unfold pretty, pretty_nat, pretty, pretty_N. case_decide.
  - exists "0"%char, "". done.
  - apply pretty_N_go_head. lia.
Qed.

Lemma hidden_group_not_base (i : nat) : "$group_" +:+ pretty i ∉ hidden_base.
Proof.
  destruct (pretty_nat_head i) as (c & s & -> & Hc).
  unfold hidden_base. rewrite !elem_of_cons, elem_of_nil.
  intros Hin. repeat destruct Hin as [Hin|Hin]; try done;
    cbv [String.append] in Hin; by simplify_eq/=.
Qed.

Lemma hidden_names_NoDup : NoDup (hidden_base ++ hidden_groups).
Proof.
  apply NoDup_app. split_and!.
  - unfold hidden_base. by apply (bool_decide_unpack _); vm_compute.
  - intros x Hbase Hgroup. unfold hidden_groups in Hgroup.
    apply list_elem_of_fmap in Hgroup as (i & -> & _).
    by apply hidden_group_not_base in Hbase.
  - unfold hidden_groups. apply NoDup_fmap_2; [|apply NoDup_seq].
    intros i j Hij. by apply (inj (String.append _)), (inj pretty) in Hij.
Qed.

Lemma elem_of_HIDDEN (name : string) :
  name ∈ HIDDEN_PROPERTY_DEFINITIONS ↔
  name ∈ hidden_base ∨ ∃ i, i < GROUP_TYPES_LIMIT ∧ name = "$group_" +:+ pretty i.
Proof.
  unfold HIDDEN_PROPERTY_DEFINITIONS, hidden_groups.
  rewrite elem_of_list_to_set, elem_of_app, list_elem_of_fmap. split.
  - intros [?|(i & -> & Hi)]; [by left|right].
    apply elem_of_seq in Hi. exists i. split; [lia|done].
  - intros [?|(i & Hi & ->)]; [by left|right].
    exists i. split; [done|]. apply elem_of_seq. lia.
Qed.

(** C9, amended: the hidden-property set holds exactly 7 + GROUP_TYPES_LIMIT
    distinct names, the seven fixed ones and one per group type. *)
Theorem HIDDEN_PROPERTY_DEFINITIONS_size :
  size HIDDEN_PROPERTY_DEFINITIONS = 7 + GROUP_TYPES_LIMIT.
Proof.
  unfold HIDDEN_PROPERTY_DEFINITIONS.
  rewrite size_list_to_set by apply hidden_names_NoDup.
  unfold hidden_groups. by rewrite length_app, length_fmap, length_seq.
Qed.

End hidden_facts.

(** C9 as stated fails: with five group types the set has 12 names, not
    13 + 5. *)
Lemma HIDDEN_PROPERTY_DEFINITIONS_size_not_13 :
  size (@HIDDEN_PROPERTY_DEFINITIONS sample) = 12
  ∧ size (@HIDDEN_PROPERTY_DEFINITIONS sample) ≠ 13 + @GROUP_TYPES_LIMIT sample.
Proof. split; [by vm_compute | by vm_compute]. Qed.

(** ** Results and three-valued logic *)

Lemma result_bind_Ok {A B} (f : A → result B) (m : result A) (b : B) :
  m ≫= f = Ok b → ∃ a, m = Ok a ∧ f a = Ok b.
Proof. destruct m as [a|e]; [|done]. intros Hf. by exists a. Qed.

Ltac inv_bind H :=
  let a := fresh "a" in
  let Ha := fresh "H" a in
  apply result_bind_Ok in H as (a & Ha & H).

Lemma holds_sql_and (a b : option bool) :
  holds (sql_and a b) = true ↔ holds a = true ∧ holds b = true.
Proof. destruct a as [[]|], b as [[]|]; simpl; naive_solver. Qed.

Lemma holds_sql_eq_Some `{EqDecision A} (x y : A) :
  holds (sql_eq (Some x) (Some y)) = true ↔ x = y.
Proof. simpl. case_bool_decide; naive_solver. Qed.


(** [x NOT IN (...)] is true only when [x] is none of the listed values;
    a NULL among them makes it unknown for every other [x]. *)
Lemma holds_sql_not_in `{EqDecision A} (x : A) (ys : list (option A)) :
  holds (sql_not (sql_in (Some x) ys)) = true ↔ (Some x ∉ ys) ∧ (None ∉ ys).
Proof.
  induction ys as [|y ys IH]; simpl.
  - rewrite !elem_of_nil. naive_solver.
  - rewrite !not_elem_of_cons.
    destruct y as [y|]; simpl; [case_bool_decide|];
      destruct (sql_in (Some x) ys) as [[]|]; simpl in *; naive_solver.
Qed.

(** ** The composer's output *)

Section composer_facts.
Context `{Externals}.

(** What a successful [get_queryset] spliced and bound. *)
Lemma get_queryset_Ok (self : ViewSet) (q : RawQuerySet) :
  get_queryset self = Ok q →
  ∃ event_names excluded_properties event_names_tuple excluded,
    _get_event_names self = Ok event_names
    ∧ _get_excluded_properties self = Ok excluded_properties
    ∧ _get_event_property_field self
      = Ok (event_property_field q, event_property_filter q)
    ∧ py_iter (or_empty_list event_names) = Ok event_names_tuple
    ∧ excluded_union excluded_properties = Ok excluded
    ∧ name_filter q = (_get_name_filter self).1
    ∧ numerical_filter q = _get_numerical_filter self
    ∧ search_query q = (_get_search_fields self).1
    ∧ params q !! "team_id" = Some (ParamValue (PyInt (team_id self)))
    ∧ params q !! "excluded_properties"
      = Some (ParamTuple (of_hashable <$> elements excluded))
    ∧ params q !! "event_names" = Some (ParamTuple event_names_tuple)
    ∧ params q !! "names" = Some (_get_name_filter self).2
    ∧ property_definition_fields q
      = join ", " ((λ column, dquote +:+ column +:+ dquote) <$> property_definition_columns).
Proof.
  unfold get_queryset. intros Hq.
  destruct (_get_name_filter self) as [nf np].
  inv_bind Hq. inv_bind Hq. inv_bind Hq. destruct a1 as [field filter].
  destruct (_get_search_fields self) as [sq sp] eqn:Hsearch.
  inv_bind Hq. inv_bind Hq. injection Hq as <-. simpl.
  assert (∀ k, k ∈ reserved_params → sp !! k = None) as Hown.
  { intros k Hk. unfold _get_search_fields in Hsearch.
    pose proof (term_search_own_params search_fields (GET self !! "search") k Hk) as Hnone.
    by rewrite Hsearch in Hnone. }
  eexists _, _, _, _. split_and!; try done.
  all: rewrite lookup_union_r by (apply Hown; set_solver).
  all: by simplify_map_eq.
Qed.

End composer_facts.

(** ** Running the composed query *)

Section execution_facts.
Context `{Externals}.



Lemma bind_tuple_Ok (ps : gmap string sqlparam) (key : string)
    (xs : list pyval) (ls : list (option string)) :
  ps !! key = Some (ParamTuple xs) → bind_tuple ps key = Ok ls → adapt_all xs = Ok ls.
Proof. unfold bind_tuple. intros ->. by destruct xs. Qed.

Lemma elem_of_run (db : database) (b : bound_statement) (r : row) :
  r ∈ run db b ↔
  ∃ pd, pd ∈ posthog_propertydefinition db
        ∧ holds (eval_where db b pd) = true
        ∧ r = select_row db b pd.
Proof.
  unfold run. rewrite merge_sort_Permutation, list_elem_of_fmap.
  setoid_rewrite list_elem_of_filter. naive_solver.
Qed.

Lemma list_rows_Ok (db : database) (self : ViewSet) (rows : list row) :
  list_rows db self = Ok rows →
  ∃ q b, get_queryset self = Ok q ∧ bind q = Ok b ∧ rows = run db b.
Proof.
  unfold list_rows, execute. intros Hrows.
  inv_bind Hrows. inv_bind Hrows. injection Hrows as <-. eauto.
Qed.

Lemma bind_Ok (q : RawQuerySet) (b : bound_statement) :
  bind q = Ok b →
  bind_select (params q) (event_property_field q) = Ok (b_derived b)
  ∧ bind_int (params q) "team_id" = Ok (b_team_id b)
  ∧ bind_tuple (params q) "excluded_properties" = Ok (b_excluded b)
  ∧ bind_fragment (params q) (name_filter q) = Ok (b_name b)
  ∧ bind_fragment (params q) (numerical_filter q) = Ok (b_numerical b)
  ∧ bind_fragment (params q) (event_property_filter q) = Ok (b_event_property b)
  ∧ b_search b = search_denote (search_query q) (params q).
Proof.
  unfold bind. intros Hb. do 6 inv_bind Hb. by injection Hb as <-.
Qed.

(** The conditions a listed row has passed, one per conjunct of the WHERE
    clause. *)
Lemma eval_where_holds (db : database) (b : bound_statement) (pd : PropertyDefinition) :
  holds (eval_where db b pd) = true ↔
    pd_team_id pd = b_team_id b
    ∧ ((Some (pd_name pd) ∉ b_excluded b) ∧ (None ∉ b_excluded b))
    ∧ holds (eval_condition db pd (b_name b)) = true
    ∧ holds (eval_condition db pd (b_numerical b)) = true
    ∧ holds (b_search b pd) = true
    ∧ holds (eval_condition db pd (b_event_property b)) = true.
Proof.
  unfold eval_where.
  by rewrite !holds_sql_and, holds_sql_eq_Some, holds_sql_not_in.
Qed.

(** C10: every row of the listing belongs to the requesting team, whatever
    the filter parameters. *)
Theorem list_rows_team (db : database) (self : ViewSet) (rows : list row) :
  list_rows db self = Ok rows →
  ∀ r, r ∈ rows → pd_team_id (definition r) = team_id self.
Proof.
  intros (q & b & Hq & Hb & ->)%list_rows_Ok r (pd & _ & Hpd & ->)%elem_of_run.
  apply eval_where_holds in Hpd as (Hteam & _). simpl. rewrite Hteam.
  apply get_queryset_Ok in Hq as (? & ? & ? & ? & _ & _ & _ & _ & _ & _ & _ & _ & Hparam & _).
  apply bind_Ok in Hb as (_ & Hint & _).
  unfold bind_int in Hint. rewrite Hparam in Hint. by injection Hint.
Qed.


End execution_facts.

(** ** The fragments and what they select *)




Section fragment_facts.
Context `{Externals}.


(** The two outcomes of [_get_event_property_field]. *)
Lemma _get_event_property_field_truthy (self : ViewSet) (v : pyval) (field filter : string) :
  _get_event_names self = Ok v → truthy v = true →
  _get_event_property_field self = Ok (field, filter) →
  field = event_property_subquery
  ∧ (GET self !! "is_event_property" = Some "true" →
     filter = "AND " +:+ event_property_subquery +:+ " = true")
  ∧ (GET self !! "is_event_property" = Some "false" →
     filter = "AND " +:+ event_property_subquery +:+ " = false")
  ∧ (GET self !! "is_event_property" ≠ Some "true" →
     GET self !! "is_event_property" ≠ Some "false" →
     filter = "").
Proof.
  unfold _get_event_property_field. intros -> Hv. simpl. rewrite Hv.
  intros Hf. inv_bind Hf. inv_bind Ha. injection Ha as <-.
  assert (0 < a0) as Hlen.
  { destruct v as [| | |s|xs|items]; simplify_eq/=;
      apply bool_decide_eq_true in Hv.
    - destruct s; [done|simpl; lia].
    - destruct xs; [done|simpl; lia].
    - destruct items; [done|simpl; lia]. }
  rewrite bool_decide_eq_true_2 in Hf by done.
  repeat case_bool_decide; simplify_eq; split_and!; congruence.
Qed.

Lemma _get_event_property_field_falsy (self : ViewSet) (v : pyval) :
  _get_event_names self = Ok v → truthy v = false →
  _get_event_property_field self = Ok ("NULL", "").
Proof.
  unfold _get_event_property_field. intros -> Hv. simpl. by rewrite Hv.
Qed.

End fragment_facts.

Section listing_facts.
Context `{Externals}.









End listing_facts.

(** ** The order of the listing *)

#[global] Instance bool_le_trans : Transitive bool_le.
Proof. unfold bool_le. intros x y z Hxy Hyz Hx. auto. Qed.

#[global] Instance bool_le_total : Total bool_le.
Proof. unfold bool_le. intros [] []; auto. Qed.

#[global] Instance key_le_trans {A} (le : relation A) `{!Transitive le} d n :
  Transitive (key_le le d n).
Proof.
  intros [a|] [b|] [c|]; destruct d; simpl; try done; try congruence.
  - apply transitivity.
  - intros Hab Hbc. by transitivity b.
Qed.

#[global] Instance key_le_total {A} (le : relation A) `{!Total le} d n :
  Total (key_le le d n).
Proof.
  intros [a|] [b|]; destruct d, n; simpl; auto; apply total; apply _.
Qed.

#[global] Instance by_key_trans {A K} (key : A → option K) (le : relation K)
  `{!Transitive le} d n : Transitive (by_key key le d n).
Proof. intros x y z. unfold by_key. apply transitivity. Qed.

#[global] Instance by_key_total {A K} (key : A → option K) (le : relation K)
  `{!Total le} d n : Total (by_key key le d n).
Proof. intros x y. unfold by_key. apply total; apply _. Qed.

#[global] Instance lex_trans {A} (R1 R2 : relation A)
  `{!Transitive R1, !Transitive R2} : Transitive (lex R1 R2).
Proof.
  intros x y z [Hxy Hxy'] [Hyz Hyz']. split.
  - by transitivity y.
  - intros Hzx. transitivity y.
    + apply Hxy'. by transitivity z.
    + apply Hyz'. by transitivity x.
Qed.

#[global] Instance lex_total {A} (R1 R2 : relation A)
  `{!RelDecision R1, !Total R1, !Total R2} : Total (lex R1 R2).
Proof.
  intros x y. unfold lex.
  destruct (decide (R1 x y)) as [Hxy|Hxy], (decide (R1 y x)) as [Hyx|Hyx].
  - destruct (total R2 x y); [left|right]; done.
  - left. done.
  - right. done.
  - destruct (total R1 x y); done.
Qed.

Section order_facts.
Context `{Externals}.

#[global] Instance order_by_trans : Transitive order_by.
Proof. unfold order_by. apply _. Qed.

#[global] Instance order_by_total : Total order_by.
Proof. unfold order_by. apply _. Qed.







End order_facts.

(** ** The statement's text *)

Section text_facts.
Context `{Externals}.

Lemma _get_name_filter_text (self : ViewSet) :
  (_get_name_filter self).1
  = if truthy (request_GET_get self "properties") then "AND name IN %(names)s" else "".
Proof.
  unfold _get_name_filter, request_GET_get.
  destruct (GET self !! "properties") as [s|]; simpl; [|done].
  by case_bool_decide.
Qed.

Lemma _get_event_property_field_text (self1 self2 : ViewSet) (v1 v2 : pyval)
    (f1 f2 : string * string) :
  _get_event_names self1 = Ok v1 → _get_event_names self2 = Ok v2 →
  truthy v1 = truthy v2 →
  (GET self1 !! "is_event_property" = Some "true"
   ↔ GET self2 !! "is_event_property" = Some "true") →
  (GET self1 !! "is_event_property" = Some "false"
   ↔ GET self2 !! "is_event_property" = Some "false") →
  _get_event_property_field self1 = Ok f1 →
  _get_event_property_field self2 = Ok f2 →
  f1 = f2.
Proof.
  intros Hv1 Hv2 Htruthy Htrue Hfalse Hf1 Hf2.
  destruct (truthy v1) eqn:Ht1; symmetry in Htruthy.
  - destruct f1 as [a1 b1], f2 as [a2 b2].
    destruct (_get_event_property_field_truthy self1 v1 _ _ Hv1 Ht1 Hf1)
      as (-> & Ht & Hf & Hn).
    destruct (_get_event_property_field_truthy self2 v2 _ _ Hv2 Htruthy Hf2)
      as (-> & Ht' & Hf' & Hn').
    f_equal.
    destruct (decide (GET self1 !! "is_event_property" = Some "true")) as [Hyes|Hno].
    { by rewrite Ht, Ht' by tauto. }
    destruct (decide (GET self1 !! "is_event_property" = Some "false")) as [Hyes'|Hno'].
    { by rewrite Hf, Hf' by tauto. }
    by rewrite Hn, Hn' by tauto.
  - rewrite (_get_event_property_field_falsy self1 v1 Hv1 Ht1) in Hf1.
    rewrite (_get_event_property_field_falsy self2 v2 Hv2 Htruthy) in Hf2.
    congruence.
Qed.

(** C3, amended: two requests that both compose a query and agree on
    whether [properties] is non-empty, on whether [is_numerical] is
    "true", on whether [is_event_property] is "true" and whether it is
    "false", on whether the event names parse to something non-empty, and
    on the fragment the term search returns, get the same statement text:
    the values of [properties], [event_names] and [excluded_properties]
    reach the parameter dictionary only. *)
Theorem raw_query_shape (self1 self2 : ViewSet) (q1 q2 : RawQuerySet) :
  get_queryset self1 = Ok q1 → get_queryset self2 = Ok q2 →
  truthy (request_GET_get self1 "properties")
  = truthy (request_GET_get self2 "properties") →
  (GET self1 !! "is_numerical" = Some "true"
   ↔ GET self2 !! "is_numerical" = Some "true") →
  (GET self1 !! "is_event_property" = Some "true"
   ↔ GET self2 !! "is_event_property" = Some "true") →
  (GET self1 !! "is_event_property" = Some "false"
   ↔ GET self2 !! "is_event_property" = Some "false") →
  (∀ v1 v2, _get_event_names self1 = Ok v1 → _get_event_names self2 = Ok v2 →
            truthy v1 = truthy v2) →
  (_get_search_fields self1).1 = (_get_search_fields self2).1 →
  raw_query q1 = raw_query q2.
Proof.
  intros Hq1 Hq2 Hprops Hnum Htrue Hfalse Hnames Hsearch.
  apply get_queryset_Ok in Hq1
    as (v1 & ? & ? & ? & Hv1 & _ & Hf1 & _ & _ & Hn1 & Hm1 & Hs1 & _ & _ & _ & _ & Hc1).
  apply get_queryset_Ok in Hq2
    as (v2 & ? & ? & ? & Hv2 & _ & Hf2 & _ & _ & Hn2 & Hm2 & Hs2 & _ & _ & _ & _ & Hc2).
  pose proof (_get_event_property_field_text self1 self2 v1 v2 _ _
                Hv1 Hv2 (Hnames _ _ Hv1 Hv2) Htrue Hfalse Hf1 Hf2) as Hfield.
  injection Hfield as Hfield Hfilter.
  unfold raw_query.
  rewrite Hc1, Hc2, Hfield, Hfilter, Hs1, Hs2, Hsearch, Hn1, Hn2, Hm1, Hm2.
  rewrite !_get_name_filter_text, Hprops.
  unfold _get_numerical_filter.
  by rewrite (bool_decide_ext _ _ Hnum).
Qed.

(** ** Malformed JSON *)



End text_facts.

(** ** Retrieving and updating *)


(** The lookup never consults the caller's team. *)
Lemma get_object_any_team (db : database) (self : ViewSet) (team : Z) :
  get_object db {| team_id := team; kwargs_id := kwargs_id self; GET := GET self |}
  = get_object db self.
Proof. done. Qed.

Lemma get_object_DoesNotExist (db : database) (self : ViewSet) :
  (∀ pd, pd ∈ posthog_propertydefinition db → pd_id pd ≠ kwargs_id self) →
  get_object db self = Raise DoesNotExist.
Proof.
  intros Hnone. unfold get_object, objects_get.
  destruct (filter _ _) as [|pd l] eqn:Hfilter; [done|].
  assert (pd ∈ filter (λ pd, pd_id pd = kwargs_id self) (posthog_propertydefinition db))
    as Hpd by (rewrite Hfilter; left).
  apply list_elem_of_filter in Hpd as [Hid Hin]. by destruct (Hnone pd Hin).
Qed.

(** ** The name filter *)

Section names_facts.
Context `{Externals}.

Lemma bind_names_rejected (q : RawQuerySet) (items : list (string * sqlparam)) :
  name_filter q = "AND name IN %(names)s" →
  params q !! "names" = Some (ParamDict items) →
  ∃ e, bind q = Raise e.
Proof.
  intros Hfilter Hnames. unfold bind.
  destruct (bind_select _ _) as [?|e]; simpl; [|by eauto].
  destruct (bind_int _ _) as [?|e]; simpl; [|by eauto].
  destruct (bind_tuple _ "excluded_properties") as [?|e]; simpl; [|by eauto].
  rewrite Hfilter. unfold bind_fragment. simpl.
  unfold bind_tuple. rewrite Hnames. simpl. eauto.
Qed.

(** [get_queryset] binds [names] to the dictionary [_get_name_filter]
    returned, not to the tuple in it: whenever [properties] is given and
    not empty, the statement mentions [%(names)s] and the listing raises. *)
Theorem list_rows_properties_raises (db : database) (self : ViewSet) (s : string) :
  GET self !! "properties" = Some s → s ≠ "" →
  ∃ e, list_rows db self = Raise e.
Proof.
  intros Hget Hs. unfold list_rows.
  destruct (get_queryset self) as [q|e] eqn:Hq; simpl; [|by eauto].
  apply get_queryset_Ok in Hq
    as (? & ? & ? & ? & _ & _ & _ & _ & _ & Hfilter & _ & _ & _ & _ & _ & Hnames & _).
  unfold _get_name_filter, request_GET_get in Hfilter, Hnames.
  rewrite Hget in Hfilter, Hnames. simpl in Hfilter, Hnames.
  rewrite bool_decide_eq_true_2 in Hfilter, Hnames by done.
  unfold execute.
  destruct (bind_names_rejected q _ Hfilter Hnames) as [e ->]. simpl. eauto.
Qed.

End names_facts.


(** ** The model at concrete requests *)


Lemma list_rows_team_witness :
  Forall (λ r, pd_team_id (definition r) = 1%Z) listing_all.
Proof.
  apply Forall_forall, (list_rows_team sample_db request_all). by vm_compute.
Defined.




Lemma raw_query_shape_witness :
  raw_query (composed request_login) = raw_query (composed request_purchase).
Proof.
  apply (raw_query_shape request_login request_purchase); try by vm_compute.
  intros v1 v2 Hv1 Hv2. vm_compute in Hv1, Hv2. by simplify_eq.
Defined.


(** C3 as stated fails: both requests carry [properties] and nothing
    else, yet the empty value adds no name filter to the text and the
    other one does. *)
Lemma raw_query_differs_on_empty_properties :
  same_shape request_empty_properties request_one_property
  ∧ query_text request_empty_properties ≠ query_text request_one_property.
Proof.
  split; [|by vm_compute].
  split_and!; try by vm_compute.
  intros v1 v2 Hv1 Hv2. vm_compute in Hv1, Hv2. by simplify_eq.
Qed.


(** C4 at the failing input: the caller's team is 1, the id is that of a
    definition of team 2, and the definition is returned. *)
Lemma get_object_other_team :
  get_object sample_db request_foreign_id = Ok p_other_team
  ∧ pd_team_id p_other_team ≠ team_id request_foreign_id.
Proof. by vm_compute. Qed.

Lemma list_rows_properties_raises_witness :
  ∃ e, list_rows sample_db request_one_property = Raise e.
Proof.
  apply (list_rows_properties_raises sample_db request_one_property "a");
    by vm_compute.
Defined.

Lemma get_object_DoesNotExist_witness :
  get_object sample_db {| team_id := 1; kwargs_id := 99; GET := ∅ |}
  = Raise DoesNotExist.
Proof.
  apply get_object_DoesNotExist. apply Forall_forall.
  by apply (bool_decide_unpack _); vm_compute.
Defined.

(** * Further properties *)

(** ** The hidden names of groups *)

Section hidden_bounds.
Context `{Externals}.

(** [$group_i] is hidden exactly for the group types below
    [GROUP_TYPES_LIMIT]. *)
Theorem hidden_group_iff (i : nat) :
  "$group_" +:+ pretty i ∈ HIDDEN_PROPERTY_DEFINITIONS ↔ i < GROUP_TYPES_LIMIT.
Proof.
  rewrite elem_of_HIDDEN. split.
  - intros [Hbase|(j & Hj & Heq)].
    + by apply hidden_group_not_base in Hbase.
    + apply (inj (String.append _)), (inj pretty) in Heq. by subst.
  - intros Hi. right. eauto.
Qed.

End hidden_bounds.

(** ** Retrieval by id *)

Lemma filter_unique_id (id : Z) (table : list PropertyDefinition) (pd : PropertyDefinition) :
  NoDup (pd_id <$> table) → pd ∈ table → pd_id pd = id →
  filter (λ x, pd_id x = id) table = [pd].
Proof.
  induction table as [|x table IH]; intros Hnodup Hin Hid.
  - by apply elem_of_nil in Hin.
  - rewrite fmap_cons in Hnodup. apply NoDup_cons in Hnodup as [Hx Hnodup].
    apply elem_of_cons in Hin as [<-|Hin].
    + rewrite filter_cons_True by done. f_equal.
      destruct (filter _ table) as [|y l] eqn:Hfilter; [done|].
      assert (y ∈ filter (λ x, pd_id x = id) table) as Hy by (rewrite Hfilter; left).
      apply list_elem_of_filter in Hy as [Hyid Hy].
      destruct Hx. rewrite Hid, <-Hyid. by apply list_elem_of_fmap_2.
    + rewrite filter_cons_False; [by apply IH|].
      intros Hxid. destruct Hx. rewrite Hxid, <-Hid. by apply list_elem_of_fmap_2.
Qed.

(** With identifiers that are unique in the table, retrieval returns a
    definition exactly when it is the stored one bearing the requested
    id; the caller's team plays no part. *)
Theorem get_object_iff (db : database) (self : ViewSet) (pd : PropertyDefinition) :
  NoDup (pd_id <$> posthog_propertydefinition db) →
  get_object db self = Ok pd
  ↔ pd ∈ posthog_propertydefinition db ∧ pd_id pd = kwargs_id self.
Proof.
  intros Hnodup. unfold get_object, objects_get. split.
  - destruct (filter _ _) as [|x [|y l]] eqn:Hfilter; try done.
    intros [= ->].
    assert (pd ∈ filter (λ x, pd_id x = kwargs_id self) (posthog_propertydefinition db))
      as Hpd by (rewrite Hfilter; left).
    apply list_elem_of_filter in Hpd. tauto.
  - intros [Hin Hid]. by rewrite (filter_unique_id _ _ pd).
Qed.

(** ** The listing and the table *)

Section table_facts.
Context `{Externals}.


End table_facts.

(** ** The names asked for *)

Lemma append_nil_r (s : string) : s +:+ "" = s.
Proof.
  induction s as [|a s IH]; [done|].
  change (String a s +:+ "") with (String a (s +:+ "")). by rewrite IH.
Qed.

Lemma append_assoc (s t u : string) : (s +:+ t) +:+ u = s +:+ t +:+ u.
Proof.
  induction s as [|a s IH]; [done|].
  change (String a ((s +:+ t) +:+ u) = String a (s +:+ t +:+ u)). by rewrite IH.
Qed.

Lemma rev_app_append (s t : string) : String.rev_app s t = String.rev s +:+ t.
Proof.
  revert t. induction s as [|a s IH]; intros t; [done|].
  unfold String.rev. simpl. by rewrite (IH (String a t)), (IH (String a "")), append_assoc.
Qed.

Lemma split_go_nonempty (sep : ascii) (cur s : string) : split_go sep cur s ≠ [].
Proof.
  revert cur. induction s as [|a s IH]; intros cur; simpl; [done|].
  by case_decide.
Qed.

Lemma join_cons (sep x : string) (xs : list string) :
  xs ≠ [] → join sep (x :: xs) = x +:+ sep +:+ join sep xs.
Proof. by destruct xs. Qed.

Lemma join_split_go (sep : ascii) (cur s : string) :
  join (String sep "") (split_go sep cur s) = String.rev cur +:+ s.
Proof.
  revert cur. induction s as [|a s IH]; intros cur; simpl.
  - by rewrite append_nil_r.
  - case_decide as Ha.
    + rewrite join_cons by apply split_go_nonempty. rewrite IH. by subst.
    + rewrite IH. unfold String.rev. simpl.
      by rewrite (rev_app_append cur (String a "")), append_assoc.
Qed.

Section names_tuple.
Context `{Externals}.

(** A non-empty [properties] is cut at its commas: the names handed on
    under the key "names" are never none, and joined by commas they give
    the parameter's text back. *)
Theorem _get_name_filter_names (self : ViewSet) (s : string) :
  GET self !! "properties" = Some s → s ≠ "" →
  ∃ names,
    _get_name_filter self
    = ("AND name IN %(names)s", ParamDict [("names", ParamTuple (PyStr <$> names))])
    ∧ names ≠ []
    ∧ join "," names = s.
Proof.
  intros Hget Hs. exists (split ","%char s).
  unfold _get_name_filter, request_GET_get. rewrite Hget. simpl.
  rewrite bool_decide_eq_true_2 by done. split_and!; [done|..].
  - apply split_go_nonempty.
  - apply (join_split_go ","%char "" s).
Qed.

End names_tuple.

(** ** How composing the query fails *)

Section failure_facts.
Context `{Externals}.





Lemma hash_all_Raise (xs : list pyval) (e : exn) : hash_all xs = Raise e → e = TypeError.
Proof.
  induction xs as [|x xs IH]; simpl; [done|].
  destruct x; simpl; try congruence; destruct (hash_all xs); simpl; try congruence; auto.
Qed.







End failure_facts.

(** ** Values that are no arrays of strings *)

Section odd_values.
Context `{Externals}.

Lemma adapt_all_None (xs : list pyval) (ls : list (option string)) :
  adapt_all xs = Ok ls → PyNone ∈ xs → None ∈ ls.
Proof.
  revert ls. induction xs as [|x xs IH]; intros ls Hls Hin; simpl in Hls.
  - by apply elem_of_nil in Hin.
  - inv_bind Hls. inv_bind Hls. injection Hls as <-.
    apply elem_of_cons in Hin as [<-|Hin].
    + simpl in Ha. injection Ha as <-. left.
    + right. by apply IH.
Qed.

Lemma hash_all_None (xs : list pyval) (hs : list hashable) :
  hash_all xs = Ok hs → PyNone ∈ xs → HNone ∈ hs.
Proof.
  revert hs. induction xs as [|x xs IH]; intros hs Hhs Hin; simpl in Hhs.
  - by apply elem_of_nil in Hin.
  - inv_bind Hhs. inv_bind Hhs. injection Hhs as <-.
    apply elem_of_cons in Hin as [<-|Hin].
    + simpl in Ha. injection Ha as <-. left.
    + right. by apply IH.
Qed.

(** A null among the caller's [excluded_properties] empties the listing:
    [name NOT IN (..., NULL)] is true of no row. *)
Theorem list_rows_excluded_null (db : database) (self : ViewSet)
    (names : list pyval) (rows : list row) :
  caller_excluded self = Ok names → PyNone ∈ names →
  list_rows db self = Ok rows → list_rows db self = Ok [].
Proof.
  intros Hnames Hnull Hrows. rewrite Hrows. f_equal. revert Hrows.
  intros (q & b & Hq & Hb & ->)%list_rows_Ok.
  apply get_queryset_Ok in Hq
    as (? & x & ? & excluded & _ & Hx & _ & _ & Hunion & _ & _ & _ & _ & Hparam & _).
  apply bind_Ok in Hb as (_ & _ & Htuple & _).
  apply (bind_tuple_Ok _ _ _ _ Hparam) in Htuple.
  unfold caller_excluded in Hnames. rewrite Hx in Hnames. simpl in Hnames.
  unfold excluded_union, py_set in Hunion. rewrite Hnames in Hunion. simpl in Hunion.
  inv_bind Hunion. inv_bind Ha. injection Ha as <-. injection Hunion as <-.
  assert (None ∈ b_excluded b) as Hnone.
  { apply (adapt_all_None _ _ Htuple), list_elem_of_fmap.
    exists HNone. split; [done|]. apply elem_of_elements, elem_of_union. left.
    apply elem_of_list_to_set. by eapply hash_all_None. }
  destruct (run db b) as [|r l] eqn:Hrun; [done|].
  assert (r ∈ run db b) as (pd & _ & Hpd & _)%elem_of_run by (rewrite Hrun; left).
  apply eval_where_holds in Hpd as (_ & (_ & Hnot) & _). by destruct Hnot.
Qed.

(** The tuple bound to [excluded_properties] is never empty and holds
    every hidden name, whatever the caller sent. *)
Theorem get_queryset_excluded_param (self : ViewSet) (q : RawQuerySet) :
  get_queryset self = Ok q →
  ∃ xs, params q !! "excluded_properties" = Some (ParamTuple xs)
        ∧ xs ≠ []
        ∧ ∀ name, name ∈ HIDDEN_PROPERTY_DEFINITIONS → PyStr name ∈ xs.
Proof.
  intros (? & x & ? & excluded & _ & _ & _ & _ & Hunion & _ & _ & _ & _ & Hparam & _)%get_queryset_Ok.
  unfold excluded_union in Hunion. inv_bind Hunion. injection Hunion as <-.
  eexists. split; [done|].
  assert (∀ name, name ∈ HIDDEN_PROPERTY_DEFINITIONS →
            PyStr name ∈ of_hashable <$> elements (a ∪ set_map HStr HIDDEN_PROPERTY_DEFINITIONS))
    as Hhidden.
  { intros name Hname. apply list_elem_of_fmap. exists (HStr name). split; [done|].
    apply elem_of_elements, elem_of_union. right. apply elem_of_map. eauto. }
  split; [|done].
  intros Hnil. specialize (Hhidden "distinct_id"). rewrite Hnil in Hhidden.
  eapply elem_of_nil, Hhidden, elem_of_HIDDEN. left. unfold hidden_base. left.
Qed.

(** [event_names] that parses to true or to a number other than zero has
    no length: composing the query raises [TypeError], unless
    [excluded_properties] has failed to parse before. *)
Theorem get_queryset_scalar_event_names (self : ViewSet) (v x : pyval) :
  _get_event_names self = Ok v →
  v = PyBool true ∨ (∃ n, v = PyInt n ∧ n ≠ 0%Z) →
  _get_excluded_properties self = Ok x →
  get_queryset self = Raise TypeError.
Proof.
  intros Hv Hscalar Hx. unfold get_queryset.
  destruct (_get_name_filter self) as [nf np].
  rewrite Hv, Hx. simpl. unfold _get_event_property_field. rewrite Hv. simpl.
  destruct Hscalar as [->|(n & -> & Hn)]; simpl; [done|].
  by rewrite (bool_decide_eq_true_2 (n ≠ 0%Z)).
Qed.

(** An array or an object inside the [excluded_properties] array cannot
    be put into a set: composing the query raises [TypeError] (here for a
    request without event names). *)
Theorem get_queryset_unhashable_excluded (self : ViewSet) (v : pyval)
    (xs : list pyval) (x : pyval) :
  _get_event_names self = Ok v → truthy v = false →
  _get_excluded_properties self = Ok (PyList xs) →
  x ∈ xs → (∃ ys, x = PyList ys) ∨ (∃ items, x = PyDict items) →
  get_queryset self = Raise TypeError.
Proof.
  intros Hv Hfalsy Hx Hin Hunhashable. unfold get_queryset.
  destruct (_get_name_filter self) as [nf np].
  rewrite Hv, Hx. simpl.
  rewrite (_get_event_property_field_falsy self v Hv Hfalsy). simpl.
  destruct (_get_search_fields self) as [sq sp].
  unfold or_empty_list at 1. rewrite Hfalsy. simpl.
  assert (hash_all xs = Raise TypeError) as Hhash.
  { clear Hx. induction xs as [|y xs IH]; [by apply elem_of_nil in Hin|].
    apply elem_of_cons in Hin as [<-|Hin]; simpl.
    - by destruct Hunhashable as [[ys ->]|[items ->]].
    - rewrite (IH Hin). by destruct y. }
  unfold excluded_union, py_set, or_empty_list. simpl.
  case_bool_decide as Hne; simpl.
  - by rewrite Hhash.
  - subst. by apply elem_of_nil in Hin.
Qed.

End odd_values.

(** ** Requests that are listed *)

Section success_facts.
Context `{Externals}.







End success_facts.

(** ** What the listing does not drop *)

Section completeness.
Context `{Externals}.





End completeness.

(** ** Excluded names as a set *)

Section excluded_set.
Context `{Externals}.

Lemma hash_all_elem_of (xs : list pyval) (hs : list hashable) (h : hashable) :
  hash_all xs = Ok hs → h ∈ hs ↔ ∃ x, x ∈ xs ∧ py_hash x = Ok h.
Proof.
  revert hs. induction xs as [|x xs IH]; intros hs Hhs; simpl in Hhs.
  - injection Hhs as <-. split; [by intros ?%elem_of_nil|].
    by intros (x & ?%elem_of_nil & _).
  - inv_bind Hhs. inv_bind Hhs. injection Hhs as <-.
    rewrite elem_of_cons, (IH _ Ha0). split.
    + intros [->|(y & Hy & Hh)]; [exists x|exists y]; split; [left|done|by right|done].
    + intros (y & [->|Hy]%elem_of_cons & Hh); [left; congruence|right; eauto].
Qed.

Lemma hash_all_is_Ok (xs : list pyval) :
  (∀ x, x ∈ xs → ∃ h, py_hash x = Ok h) → ∃ hs, hash_all xs = Ok hs.
Proof.
  induction xs as [|x xs IH]; intros Hall; simpl; [by eauto|].
  destruct (Hall x) as [h ->]; [left|]. simpl.
  destruct IH as [hs ->]; [|simpl; by eauto].
  intros y Hy. apply Hall. by right.
Qed.

Lemma hash_all_Ok_elem (xs : list pyval) (hs : list hashable) (x : pyval) :
  hash_all xs = Ok hs → x ∈ xs → ∃ h, py_hash x = Ok h.
Proof.
  revert hs. induction xs as [|y xs IH]; intros hs Hhs Hin; simpl in Hhs.
  - by apply elem_of_nil in Hin.
  - inv_bind Hhs. inv_bind Hhs.
    apply elem_of_cons in Hin as [->|Hin]; eauto.
Qed.

(** [set(xs)] depends on the elements of [xs] only. *)
Lemma py_set_same_elements (xs1 xs2 : list pyval) :
  (∀ x, x ∈ xs1 ↔ x ∈ xs2) → py_set (PyList xs1) = py_set (PyList xs2).
Proof.
  intros Hsame. unfold py_set. simpl.
  destruct (hash_all xs1) as [hs1|e1] eqn:H1, (hash_all xs2) as [hs2|e2] eqn:H2; simpl.
  - f_equal. apply set_eq. intros h. rewrite !elem_of_list_to_set.
    rewrite (hash_all_elem_of _ _ h H1), (hash_all_elem_of _ _ h H2).
    by setoid_rewrite Hsame.
  - destruct (hash_all_is_Ok xs2) as [hs Hhs]; [|congruence].
    intros x Hx%Hsame. by eapply hash_all_Ok_elem.
  - destruct (hash_all_is_Ok xs1) as [hs Hhs]; [|congruence].
    intros x Hx%Hsame. by eapply hash_all_Ok_elem.
  - apply hash_all_Raise in H1, H2. congruence.
Qed.

(** Order and repetitions in the [excluded_properties] array do not
    matter: two requests that differ only there, by arrays with the same
    elements, get the same listing. *)
Theorem list_rows_excluded_as_set (db : database) (self1 self2 : ViewSet)
    (xs1 xs2 : list pyval) :
  team_id self1 = team_id self2 →
  (∀ k, k ≠ "excluded_properties" → GET self1 !! k = GET self2 !! k) →
  _get_excluded_properties self1 = Ok (PyList xs1) →
  _get_excluded_properties self2 = Ok (PyList xs2) →
  (∀ x, x ∈ xs1 ↔ x ∈ xs2) →
  list_rows db self1 = list_rows db self2.
Proof.
  intros Hteam Hagree Hx1 Hx2 Hsame. unfold list_rows. f_equal.
  assert (excluded_union (PyList xs1) = excluded_union (PyList xs2)) as Hunion.
  { unfold excluded_union, or_empty_list. simpl.
    assert (bool_decide (xs1 ≠ []) = bool_decide (xs2 ≠ [])) as <-.
    { apply bool_decide_ext. split; intros Hne ->.
      - destruct xs1 as [|x xs1]; [done|]. by apply (elem_of_nil x), Hsame; left.
      - destruct xs2 as [|x xs2]; [done|]. by apply (elem_of_nil x), Hsame; left. }
    case_bool_decide; [|done]. by rewrite (py_set_same_elements xs1 xs2). }
  assert (_get_name_filter self1 = _get_name_filter self2) as Hname.
  { unfold _get_name_filter, request_GET_get. by rewrite Hagree. }
  assert (_get_numerical_filter self1 = _get_numerical_filter self2) as Hnum.
  { unfold _get_numerical_filter. by rewrite Hagree. }
  assert (_get_event_names self1 = _get_event_names self2) as Hnames.
  { unfold _get_event_names, request_GET_get. by rewrite Hagree. }
  assert (_get_event_property_field self1 = _get_event_property_field self2) as Hfield.
  { unfold _get_event_property_field. by rewrite Hnames, !Hagree. }
  assert (_get_search_fields self1 = _get_search_fields self2) as Hsearch.
  { unfold _get_search_fields. by rewrite Hagree. }
  unfold get_queryset. rewrite Hx1, Hx2, Hname, Hnum, Hnames, Hfield, Hsearch, Hteam.
  destruct (_get_name_filter self2) as [nf np].
  destruct (_get_event_names self2) as [v|e]; simpl; [|done].
  destruct (_get_event_property_field self2) as [[field filter]|e]; simpl; [|done].
  destruct (_get_search_fields self2) as [sq sp].
  destruct (py_iter (or_empty_list v)) as [tuple|e]; simpl; [|done].
  by rewrite Hunion.
Qed.

End excluded_set.

(** ** Further concrete requests *)

Lemma get_object_iff_witness :
  get_object sample_db (request_id 1 3) = Ok p_amount
  ↔ p_amount ∈ posthog_propertydefinition sample_db
    ∧ pd_id p_amount = kwargs_id (request_id 1 3).
Proof.
  apply (get_object_iff sample_db (request_id 1 3) p_amount).
  by apply (bool_decide_unpack _); vm_compute.
Defined.


Lemma _get_name_filter_names_witness :
  ∃ names,
    _get_name_filter request_three_properties
    = ("AND name IN %(names)s", ParamDict [("names", ParamTuple (PyStr <$> names))])
    ∧ names ≠ []
    ∧ join "," names = "plan,,amount".
Proof.
  apply (_get_name_filter_names request_three_properties "plan,,amount"); by vm_compute.
Defined.

Lemma list_rows_excluded_null_witness :
  @list_rows sample_values sample_db request_excluding_null = Ok [].
Proof.
  apply (@list_rows_excluded_null sample_values sample_db request_excluding_null
           [PyNone] []); [by vm_compute|left|by vm_compute].
Defined.

Lemma get_queryset_excluded_param_witness :
  ∃ xs, params (composed request_all) !! "excluded_properties" = Some (ParamTuple xs)
        ∧ xs ≠ []
        ∧ ∀ name, name ∈ HIDDEN_PROPERTY_DEFINITIONS → PyStr name ∈ xs.
Proof. apply (get_queryset_excluded_param request_all). by vm_compute. Defined.

Lemma get_queryset_scalar_event_names_witness :
  @get_queryset sample_values request_number = Raise TypeError.
Proof.
  apply (@get_queryset_scalar_event_names sample_values request_number (PyInt 5) PyNone);
    [by vm_compute|right|by vm_compute].
  by exists 5%Z.
Defined.

Lemma get_queryset_unhashable_excluded_witness :
  @get_queryset sample_values request_excluding_array = Raise TypeError.
Proof.
  apply (@get_queryset_unhashable_excluded sample_values request_excluding_array
           PyNone [PyList []] (PyList [])); [by vm_compute..|left|left; by exists []].
Defined.



Lemma list_rows_excluded_as_set_witness :
  list_rows sample_db request_excluding_two
  = list_rows sample_db request_excluding_repeated.
Proof.
  apply (list_rows_excluded_as_set sample_db request_excluding_two
           request_excluding_repeated
           [PyStr "plan"; PyStr "amount"] [PyStr "amount"; PyStr "plan"; PyStr "plan"]);
    [done| |by vm_compute..|].
  - intros k Hk. unfold request_excluding_two, request_excluding_repeated, request.
    simpl. by rewrite !lookup_insert_ne by done.
  - intros x. rewrite !elem_of_cons, !elem_of_nil. tauto.
Defined.
